(** * Braincast: the report orchestration of [src/App.tsx]

    The component keeps three pieces of React state ([screen], [btcPrice],
    [report]) and two handlers, [startBraincast] and [newReport].  This
    development embeds the handlers over an explicit model of the values
    the two endpoints can deliver, of the promises the handler joins and
    of the component state, and proves the properties the specification
    states about them. *)

From Stdlib Require Import QArith Qround Qabs Lqa ZArith NArith Lia.
From stdpp Require Import gmap strings list.

(** ** JavaScript values, as [res.json()] delivers them *)

Module Js.

(** A JavaScript number, by its exact value.  [JSON.parse] yields finite
    numbers and, on overflow, an infinity; the sign of zero and the
    rounding of a decimal literal to a double are not represented. *)
Inductive number : Type :=
  | Finite (q : Q)
  | PosInf
  | NegInf
  | NaN.

#[warnings="-register-all"] Inductive value : Type :=
  | VUndefined
  | VNull
  | VBool (b : bool)
  | VNum (n : number)
  | VStr (s : string)
  | VArr (items : list value)
  | VObj (props : gmap string value).

Inductive error : Type :=
  | TypeError
  | SyntaxError
  | HostError.

(** The completion of an evaluation: a value, or a thrown exception. *)
Inductive completion (A : Type) : Type :=
  | Normal (a : A)
  | Throw (e : error).
Arguments Normal {A} a.
Arguments Throw {A} e.

#[global] Instance completion_ret : MRet completion := @Normal.
#[global] Instance completion_bind : MBind completion :=
  fun A B f c => match c with Normal a => f a | Throw e => Throw e end.

Definition num (q : Q) : value := VNum (Finite q).

(** [ToBoolean]. *)
Definition truthy (v : value) : bool :=
  match v with
  | VUndefined | VNull => false
  | VBool b => b
  | VNum (Finite q) => negb (Qnum q =? 0)%Z
  | VNum NaN => false
  | VNum _ => true
  | VStr s => negb (String.eqb s "")
  | VArr _ | VObj _ => true
  end.

Definition nullish (v : value) : bool :=
  match v with
  | VUndefined | VNull => true
  | _ => false
  end.

(** [v.k] for the property names the component reads ([price],
    [signal], [stopLoss], ...): none of them is an index, [length] or a
    member of a built-in prototype, so only an object can hold one. *)
Definition own (v : value) (k : string) : value :=
  match v with
  | VObj props => default VUndefined (props !! k)
  | _ => VUndefined
  end.

(** The property read itself: reading from [undefined] or [null] throws. *)
Definition get (v : value) (k : string) : completion value :=
  if nullish v then Throw TypeError else Normal (own v k).

(** [a && b], [a || b], [a ?? b] and [a?.k].  The right operand is a
    completion, used only when the operator reaches it. *)
Definition and_then (a b : completion value) : completion value :=
  x ← a; if truthy x then b else mret x.

Definition or_else (a b : completion value) : completion value :=
  x ← a; if truthy x then mret x else b.

Definition coalesce (a b : completion value) : completion value :=
  x ← a; if nullish x then b else mret x.

Definition opt_get (a : completion value) (k : string) : completion value :=
  x ← a; if nullish x then mret VUndefined else get x k.

(** [Math.round]: the integer nearest to the argument, a tie going up. *)
Definition Math_round (n : number) : number :=
  match n with
  | Finite q => Finite (inject_Z (Qfloor (q + (1 # 2))))
  | _ => n
  end.

End Js.

Import Js.

Infix "&&&" := and_then (at level 40, left associativity).
Infix "|||" := or_else (at level 50, left associativity).
Infix "???" := coalesce (at level 50, left associativity).

(** ** Promises on a logical clock

    A promise is known by the time at which it settles (milliseconds
    since the handler was invoked) and by how it settles. *)

Module Promise.

Record promise (A : Type) : Type := Settle {
  settled_at : N;
  outcome : completion A;
}.
Arguments Settle {A} _ _.
Arguments settled_at {A} _.
Arguments outcome {A} _.

(** [p.then(f)], where [f] returns a promise created when [p] fulfils. *)
Definition then_ {A B} (p : promise A) (f : N -> A -> promise B) : promise B :=
  match outcome p with
  | Normal a => f (settled_at p) a
  | Throw e => Settle (settled_at p) (Throw e)
  end.

(** [p.catch(h)]. *)
Definition catch_ {A} (p : promise A) (h : error -> A) : promise A :=
  match outcome p with
  | Normal a => p
  | Throw e => Settle (settled_at p) (Normal (h e))
  end.

(** The earliest rejection among [ps], the first listed winning a tie. *)
Fixpoint first_rejection {A} (ps : list (promise A)) : option (N * error) :=
  match ps with
  | [] => None
  | p :: rest =>
      match outcome p, first_rejection rest with
      | Throw e, Some (t, e') =>
          if (settled_at p <=? t)%N then Some (settled_at p, e) else Some (t, e')
      | Throw e, None => Some (settled_at p, e)
      | Normal _, r => r
      end
  end.

Fixpoint fulfilled {A} (ps : list (promise A)) : list A :=
  match ps with
  | [] => []
  | p :: rest =>
      match outcome p with
      | Normal a => a :: fulfilled rest
      | Throw _ => fulfilled rest
      end
  end.

Definition latest {A} (ps : list (promise A)) : N :=
  foldr (fun p t => N.max (settled_at p) t) 0%N ps.

(** [Promise.all(ps)]: rejects as soon as one of [ps] rejects, and
    otherwise fulfils, with all the values, when the last one has. *)
Definition all {A} (ps : list (promise A)) : promise (list A) :=
  match first_rejection ps with
  | Some (t, e) => Settle t (Throw e)
  | None => Settle (latest ps) (Normal (fulfilled ps))
  end.

End Promise.

Import Promise.

(** ** The environment of one run

    What each endpoint does when it is fetched, how late the timer
    fires, and whether a statement of the guarded block throws.  The
    platform is taken as specified: the state setters, [fetch], [then],
    [catch], [setTimeout] and [Promise.all] do not throw, a request that
    fails or a body that does not parse rejects its promise, and every
    request settles after a finite time. *)

Inductive Body : Type :=
  | NotJson
  | Json (v : value).

Inductive FetchResult : Type :=
  | NetworkError
  | Response (body : Body).

Record Fetch : Type := {
  latency : N;
  result : FetchResult;
}.

(** The statements of the [try] block that follow the join.  None of
    them throws by itself (see [processPrice_total] and
    [processReport_total]); the environment may name one of them as the
    place of an exception, which is the case the [catch] clause is
    written for. *)
Inductive Step : Type :=
  | Destructuring
  | PriceNormalization
  | ReportNormalization.

Definition same_step (a b : Step) : bool :=
  match a, b with
  | Destructuring, Destructuring
  | PriceNormalization, PriceNormalization
  | ReportNormalization, ReportNormalization => true
  | _, _ => false
  end.

Record Env : Type := {
  endpoint : string -> Fetch;
  timerLag : N;
  fault : option Step;
}.

(** ** The component state *)

Inductive Screen : Type :=
  | Landing
  | Loading
  | Report.

(** The fields hold whatever the handler stores in them: the interfaces
    of the source are erased at run time. *)
Record BtcPrice : Type := {
  price : value;
  change24h : value;
}.

Record ReportData : Type := {
  direction : value;
  entryPrice : value;
  targetPrice : value;
  stopPrice : value;
  leverage : value;
}.

Record AppState : Type := {
  screen : Screen;
  btcPrice : option BtcPrice;
  report : option ReportData;
}.

(** [useState] initial values. *)
Definition initial : AppState :=
  {| screen := Landing; btcPrice := None; report := None |}.

(** The clock, the component state, and every state a setter has
    produced so far with the time at which it did, oldest first. *)
Record World : Type := {
  now : N;
  app : AppState;
  log : list (N * AppState);
}.

Definition boot (st : AppState) : World :=
  {| now := 0; app := st; log := [] |}.

(** ** Handlers as computations over the world *)

Definition M (A : Type) : Type := World -> completion A * World.

#[global] Instance M_ret : MRet M := fun A a w => (Normal a, w).
#[global] Instance M_bind : MBind M :=
  fun A B f m w =>
    match m w with
    | (Normal a, w') => f a w'
    | (Throw e, w') => (Throw e, w')
    end.

Definition lift {A} (c : completion A) : M A := fun w => (c, w).

Definition try_catch {A} (body : M A) (handler : error -> M A) : M A :=
  fun w =>
    match body w with
    | (Normal a, w') => (Normal a, w')
    | (Throw e, w') => handler e w'
    end.

Definition update (f : AppState -> AppState) : M unit :=
  fun w =>
    let st := f (app w) in
    (Normal tt, {| now := now w; app := st; log := log w ++ [(now w, st)] |}).

Definition setScreen (s : Screen) : M unit :=
  update (fun st => {| screen := s; btcPrice := btcPrice st; report := report st |}).

Definition setBtcPrice (p : option BtcPrice) : M unit :=
  update (fun st => {| screen := screen st; btcPrice := p; report := report st |}).

Definition setReport (r : option ReportData) : M unit :=
  update (fun st => {| screen := screen st; btcPrice := btcPrice st; report := r |}).

(** [fetch(url)]: the promise of a response, rejected on a network
    failure. *)
Definition fetch (env : Env) (url : string) : M (promise Body) :=
  fun w =>
    let f := endpoint env url in
    (Normal (Settle (now w + latency f)
               match result f with
               | NetworkError => Throw TypeError
               | Response body => Normal body
               end), w).

(** [res.json()]. *)
Definition json (t : N) (res : Body) : promise value :=
  Settle t match res with
           | NotJson => Throw SyntaxError
           | Json v => Normal v
           end.

(** [new Promise((resolve) => setTimeout(resolve, ms))]: the timer
    fires [ms] after it is set, or later. *)
Definition delay (env : Env) (ms : N) : M (promise value) :=
  fun w => (Normal (Settle (now w + ms + timerLag env) (Normal VUndefined)), w).

(** [await p]: the handler resumes when [p] has settled. *)
Definition await {A} (p : promise A) : M A :=
  fun w =>
    (outcome p,
     {| now := N.max (now w) (settled_at p); app := app w; log := log w |}).

(** The statement [s] throws when the environment says so. *)
Definition may_throw (env : Env) (s : Step) : M unit :=
  fun w =>
    match fault env with
    | Some s' => if same_step s' s then (Throw HostError, w) else (Normal tt, w)
    | None => (Normal tt, w)
    end.

(** ** Normalization *)

Definition fallbackPrice : BtcPrice :=
  {| price := num 113279; change24h := num (-2.76) |}.

Definition fallbackReport : ReportData :=
  {| direction := VStr "LONG";
     entryPrice := num 119500;
     targetPrice := num 121500;
     stopPrice := num 119200;
     leverage := num 30 |}.

(** Lines 50-58: the snapshot passed to [setBtcPrice].  The test
    [typeof x === 'number'] is the match on [VNum]. *)
Definition processPrice (priceData : value) : completion BtcPrice :=
  if truthy priceData then
    p ← get priceData "price";
    match p with
    | VNum n =>
        c ← get priceData "change24h";
        mret {| price := VNum (Math_round n);
                change24h := match c with VNum _ => c | _ => num 0 end |}
    | _ => mret fallbackPrice
    end
  else mret fallbackPrice.

(** Lines 61-78: the report passed to [setReport]. *)
Definition processReport (reportData : value) : completion ReportData :=
  present ← mret reportData &&&
              (get reportData "signal" ||| get reportData "direction");
  if truthy present then
    d ← get reportData "signal" ||| get reportData "direction"
          ||| mret (VStr "LONG");
    e ← get reportData "entryPrice"
          ??? opt_get (get reportData "technicalData") "entryPrice"
          ??? mret (num 119500);
    t ← get reportData "targetPrice" ??? get reportData "exitPrice"
          ??? mret (num 121500);
    s ← get reportData "stopPrice" ??? get reportData "stopLoss"
          ??? mret (num 119200);
    l ← get reportData "leverage" ??? mret (num 30);
    mret {| direction := d; entryPrice := e; targetPrice := t;
            stopPrice := s; leverage := l |}
  else mret fallbackReport.

(** ** The two handlers *)

(** [fetch(url).then((res) => res.json()).catch(() => null)]. *)
Definition fetchJson (env : Env) (url : string) : M (promise value) :=
  p ← fetch env url;
  mret (catch_ (then_ p json) (fun _ => VNull)).

Definition startBraincast (env : Env) : M unit :=
  setScreen Loading;;
  setBtcPrice None;;
  setReport None;;
  pricePromise ← fetchJson env "/api/btc-price";
  reportPromise ← fetchJson env "/api/coinalyze-scalp";
  delayPromise ← delay env 3500;
  try_catch
    (joined ← await (all [pricePromise; reportPromise; delayPromise]);
     may_throw env Destructuring;;
     let priceData := default VUndefined (joined !! 0%nat) in
     let reportData := default VUndefined (joined !! 1%nat) in
     may_throw env PriceNormalization;;
     p ← lift (processPrice priceData);
     setBtcPrice (Some p);;
     may_throw env ReportNormalization;;
     r ← lift (processReport reportData);
     setReport (Some r))
    (fun err =>
       setBtcPrice (Some fallbackPrice);;
       setReport (Some fallbackReport));;
  setScreen Report.

Definition newReport : M unit :=
  setScreen Landing.

(** ** Definitions used to state the properties *)

(** What [fetchJson] resolves with: the parsed body, or [null] when the
    request or the parsing failed. *)
Definition delivered (f : Fetch) : value :=
  match result f with
  | Response (Json v) => v
  | _ => VNull
  end.

Definition price_url : string := "/api/btc-price".
Definition report_url : string := "/api/coinalyze-scalp".

(** When the join of the two fetches and the timer settles, for a
    handler invoked at time [0]. *)
Definition finish (env : Env) : N :=
  N.max (N.max (latency (endpoint env price_url))
               (latency (endpoint env report_url)))
        (3500 + timerLag env).

Definition is_number (v : value) : bool :=
  match v with VNum _ => true | _ => false end.

Definition defined (v : value) : bool := negb (nullish v).

(** The first truthy candidate, else the default. *)
Fixpoint first_truthy (candidates : list value) (dflt : value) : value :=
  match candidates with
  | [] => dflt
  | v :: rest => if truthy v then v else first_truthy rest dflt
  end.

(** The first candidate that is neither [undefined] nor [null], else
    the default: the ordered field resolution of the specification. *)
Fixpoint first_defined (candidates : list value) (dflt : value) : value :=
  match candidates with
  | [] => dflt
  | v :: rest => if nullish v then first_defined rest dflt else v
  end.

(** The price snapshot as the specification words it. *)
Definition spec_price (pd : value) : BtcPrice :=
  match own pd "price" with
  | VNum n =>
      {| price := VNum (Math_round n);
         change24h :=
           if is_number (own pd "change24h") then own pd "change24h" else num 0 |}
  | _ => fallbackPrice
  end.

(** The report of a result that is present, as the specification words
    it: direction from [signal], then [direction], then LONG; every
    other field from its primary name, its alternate name, its
    constant. *)
Definition resolved (rd : value) : ReportData :=
  {| direction :=
       first_truthy [own rd "signal"; own rd "direction"] (VStr "LONG");
     entryPrice :=
       first_defined
         [own rd "entryPrice"; own (own rd "technicalData") "entryPrice"]
         (num 119500);
     targetPrice :=
       first_defined [own rd "targetPrice"; own rd "exitPrice"] (num 121500);
     stopPrice :=
       first_defined [own rd "stopPrice"; own rd "stopLoss"] (num 119200);
     leverage := first_defined [own rd "leverage"] (num 30) |}.

(** The result carries the field [k], whatever its value. *)
Definition carries (rd : value) (k : string) : bool :=
  match rd with
  | VObj props => bool_decide (is_Some (props !! k))
  | _ => false
  end.

(** The test of line 61: [signal] or [direction] is truthy. *)
Definition has_signal (rd : value) : bool :=
  truthy (own rd "signal") || truthy (own rd "direction").

Definition spec_report (rd : value) : ReportData :=
  if has_signal rd then resolved rd else fallbackReport.

Definition populated_price (p : BtcPrice) : bool :=
  defined (price p) && defined (change24h p).

Definition populated_report (r : ReportData) : bool :=
  defined (direction r) && defined (entryPrice r) && defined (targetPrice r)
  && defined (stopPrice r) && defined (leverage r).

(** The invariant of the data model: a state showing the report holds
    a price snapshot and a trade report, each with every field set. *)
Definition complete (st : AppState) : Prop :=
  screen st = Report ->
  exists p r,
    btcPrice st = Some p /\ report st = Some r /\
    populated_price p = true /\ populated_report r = true.

Definition mk (s : Screen) (p : option BtcPrice) (r : option ReportData) :
  AppState := {| screen := s; btcPrice := p; report := r |}.

(** The states a run started in [st] passes through, and its outcome. *)
Definition run (env : Env) (st : AppState) : completion unit * World :=
  startBraincast env (boot st).

Definition obj (fields : list (string * value)) : value :=
  VObj (list_to_map fields).

(** Scenario 1 and 2 of the specification, and a result whose [signal]
    is present but empty. *)
Definition scenario1 : value :=
  obj [("price", num 65000.7); ("change24h", num 1.2)].

Definition scenario2 : value :=
  obj [("signal", VStr "SHORT"); ("entryPrice", num 70000);
       ("stopLoss", num 71000)].

Definition empty_signal : value :=
  obj [("signal", VStr ""); ("entryPrice", num 70000)].

(** An environment serving [pd] and [rd] after 120 ms and 40 ms. *)
Definition serving (pd rd : value) (f : option Step) : Env :=
  {| endpoint := fun url =>
       if String.eqb url price_url
       then {| latency := 120; result := Response (Json pd) |}
       else {| latency := 40; result := Response (Json rd) |};
     timerLag := 4;
     fault := f |}.

(** Both requests fail at once. *)
Definition offline : Env :=
  {| endpoint := fun _ => {| latency := 0; result := NetworkError |};
     timerLag := 0;
     fault := None |}.

(** A report screen showing the fallback data. *)
Definition shown : AppState :=
  mk Report (Some fallbackPrice) (Some fallbackReport).

(** The life of the component: a run from the landing screen, a reset
    from the report screen. *)
Inductive lifecycle : AppState -> AppState -> Prop :=
  | life_start env st :
      screen st = Landing -> lifecycle st (app (run env st).2)
  | life_reset st :
      screen st = Report -> lifecycle st (app (newReport (boot st)).2).

(** ** Exceptions at any statement of the handler

    [startBraincast] above lets only the statements that follow the
    join throw.  To follow an exception thrown by any other statement
    of lines 35-86, as by a [fetch] that throws when it is called, the
    handler is written once more with a site at which its statement
    throws; the [fault] of the environment is then not consulted, its
    three statements being the sites [Guarded]. *)

Inductive Site : Type :=
  | SetLoading
  | ClearPrice
  | ClearReport
  | FetchPrice
  | FetchReport
  | SetTimer
  | Join
  | Guarded (s : Step)
  | ShowReport.

Definition same_site (a b : Site) : bool :=
  match a, b with
  | SetLoading, SetLoading
  | ClearPrice, ClearPrice
  | ClearReport, ClearReport
  | FetchPrice, FetchPrice
  | FetchReport, FetchReport
  | SetTimer, SetTimer
  | Join, Join
  | ShowReport, ShowReport => true
  | Guarded s, Guarded s' => same_step s s'
  | _, _ => false
  end.

(** The sites of the [try] block, lines 46-78. *)
Definition in_try (a : Site) : bool :=
  match a with
  | Join | Guarded _ => true
  | _ => false
  end.

Definition throw_at (site : option Site) (a : Site) : M unit :=
  fun w =>
    match site with
    | Some b => if same_site b a then (Throw HostError, w) else (Normal tt, w)
    | None => (Normal tt, w)
    end.

Definition startBraincastAt (site : option Site) (env : Env) : M unit :=
  throw_at site SetLoading;;
  setScreen Loading;;
  throw_at site ClearPrice;;
  setBtcPrice None;;
  throw_at site ClearReport;;
  setReport None;;
  pricePromise ← (throw_at site FetchPrice;;
                  fetchJson env "/api/btc-price");
  reportPromise ← (throw_at site FetchReport;;
                   fetchJson env "/api/coinalyze-scalp");
  delayPromise ← (throw_at site SetTimer;; delay env 3500);
  try_catch
    (throw_at site Join;;
     joined ← await (all [pricePromise; reportPromise; delayPromise]);
     throw_at site (Guarded Destructuring);;
     let priceData := default VUndefined (joined !! 0%nat) in
     let reportData := default VUndefined (joined !! 1%nat) in
     throw_at site (Guarded PriceNormalization);;
     p ← lift (processPrice priceData);
     setBtcPrice (Some p);;
     throw_at site (Guarded ReportNormalization);;
     r ← lift (processReport reportData);
     setReport (Some r))
    (fun err =>
       setBtcPrice (Some fallbackPrice);;
       setReport (Some fallbackReport));;
  throw_at site ShowReport;;
  setScreen Report.

(** ** Colours of the report markup

    The choices of colour and prefix that lines 152, 154 and 166 make
    inline. *)

Definition green : string := "#16a34a".
Definition red : string := "#dc2626".
Definition grey : string := "#6b7280".

(** [n >= 0]. *)
Definition ge_zero (n : number) : bool :=
  match n with
  | Finite q => Qle_bool 0 q
  | PosInf => true
  | NegInf | NaN => false
  end.

(** Lines 152 and 154: the colour of the 24h change and the prefix in
    front of it.  They are given for a number only: on another value
    [>=] would first convert it, which is not represented. *)
Definition changeColor (priceChange : value) : option string :=
  match priceChange with
  | VNum n => Some (if ge_zero n then green else red)
  | _ => None
  end.

Definition changePrefix (priceChange : value) : option string :=
  match priceChange with
  | VNum n => Some (if ge_zero n then "+" else "")
  | _ => None
  end.

(** Line 166: the colour of the signal, by strict equality with
    ['LONG'] and ['SHORT']. *)
Definition signalColor (d : value) : string :=
  match d with
  | VStr s =>
      if String.eqb s "LONG" then green
      else if String.eqb s "SHORT" then red
      else grey
  | _ => grey
  end.

(** An environment whose price endpoint serves [pd] and whose report
    endpoint is unreachable. *)
Definition price_only (pd : value) : Env :=
  {| endpoint := fun url =>
       if String.eqb url price_url
       then {| latency := 900; result := Response (Json pd) |}
       else {| latency := 7000; result := NetworkError |};
     timerLag := 0;
     fault := None |}.

(** ** Expressions never throw *)

Lemma get_truthy v k : truthy v = true -> get v k = Normal (own v k).
Proof. destruct v; try discriminate; reflexivity. Qed.

Lemma own_falsy v k : truthy v = false -> own v k = VUndefined.
Proof. destruct v; try discriminate; reflexivity. Qed.

Lemma truthy_defined v : truthy v = true -> defined v = true.
Proof. destruct v; try discriminate; reflexivity. Qed.

Lemma or_else_normal a b :
  Normal a ||| Normal b = Normal (if truthy a then a else b).
Proof. unfold or_else; cbn. destruct (truthy a); reflexivity. Qed.

Lemma coalesce_normal a b :
  Normal a ??? Normal b = Normal (if nullish a then b else a).
Proof. unfold coalesce; cbn. destruct (nullish a); reflexivity. Qed.

Lemma opt_get_normal a k : opt_get (Normal a) k = Normal (own a k).
Proof. unfold opt_get, get; cbn. destruct a; reflexivity. Qed.

Lemma first_truthy_chain a b c :
  (if truthy (if truthy a then a else b)
   then (if truthy a then a else b) else c)
  = first_truthy [a; b] c.
Proof.
  cbn. destruct (truthy a) eqn:Ha; [rewrite Ha|]; reflexivity.
Qed.

Lemma first_defined_chain a b c :
  (if nullish (if nullish a then b else a)
   then c else (if nullish a then b else a))
  = first_defined [a; b] c.
Proof.
  cbn. destruct (nullish a) eqn:Ha; [|rewrite Ha]; reflexivity.
Qed.

Lemma first_truthy_defined l d :
  truthy d = true -> defined (first_truthy l d) = true.
Proof.
  intros Hd. induction l as [|v l IH]; cbn.
  - now apply truthy_defined.
  - destruct (truthy v) eqn:Hv; [now apply truthy_defined|exact IH].
Qed.

Lemma first_defined_defined l d :
  defined d = true -> defined (first_defined l d) = true.
Proof.
  intros Hd. induction l as [|v l IH]; cbn; [exact Hd|].
  destruct (nullish v) eqn:Hv; [exact IH|].
  unfold defined. now rewrite Hv.
Qed.

(** The price expression of lines 50-58 always yields the snapshot the
    specification describes. *)
Lemma processPrice_total pd : processPrice pd = Normal (spec_price pd).
Proof.
  unfold spec_price, processPrice.
  destruct (truthy pd) eqn:Hpd.
  - rewrite !(get_truthy _ _ Hpd). cbn.
    destruct (own pd "price"); try reflexivity.
    destruct (own pd "change24h"); reflexivity.
  - rewrite (own_falsy _ _ Hpd). reflexivity.
Qed.

(** The report expression of lines 61-78 always yields a report: the
    resolved one when [signal] or [direction] is truthy, the fallback
    otherwise. *)
Lemma processReport_total rd : processReport rd = Normal (spec_report rd).
Proof.
  unfold spec_report, has_signal, processReport.
  destruct (truthy rd) eqn:Hrd.
  - rewrite !(get_truthy _ _ Hrd).
    change (@mret completion _ value) with (@Normal value).
    rewrite opt_get_normal, !or_else_normal, !coalesce_normal.
    rewrite first_truthy_chain, !first_defined_chain.
    unfold and_then, mbind, completion_bind, mret, completion_ret.
    rewrite Hrd.
    destruct (truthy (own rd "signal") || truthy (own rd "direction")) eqn:Hp.
    + replace (truthy (if truthy (own rd "signal")
                       then own rd "signal" else own rd "direction"))
        with true; [reflexivity|].
      destruct (truthy (own rd "signal")) eqn:Hs; [congruence|].
      cbn in Hp. congruence.
    + apply orb_false_iff in Hp as [Hs Hd]. rewrite Hs, Hd. reflexivity.
  - rewrite !(own_falsy _ _ Hrd).
    unfold and_then, mbind, completion_bind, mret, completion_ret.
    rewrite !Hrd. reflexivity.
Qed.

Lemma spec_price_numbers pd :
  is_number (price (spec_price pd)) = true /\
  is_number (change24h (spec_price pd)) = true.
Proof.
  unfold spec_price. destruct (own pd "price"); try (split; reflexivity).
  cbn. destruct (is_number (own pd "change24h")) eqn:Hc; auto.
Qed.

Lemma spec_price_populated pd : populated_price (spec_price pd) = true.
Proof.
  destruct (spec_price_numbers pd) as [Hp Hc]. unfold populated_price.
  destruct (price (spec_price pd)), (change24h (spec_price pd));
    try discriminate; reflexivity.
Qed.

Lemma spec_report_populated rd : populated_report (spec_report rd) = true.
Proof.
  unfold spec_report. destruct (has_signal rd); [|reflexivity].
  unfold populated_report, resolved; cbn [direction entryPrice targetPrice
    stopPrice leverage].
  rewrite first_truthy_defined by reflexivity.
  rewrite !first_defined_defined by reflexivity.
  reflexivity.
Qed.

(** ** Promises that cannot reject *)

Lemma catch_fulfils {A} (p : promise A) h :
  exists a, outcome (catch_ p h) = Normal a.
Proof.
  unfold catch_. destruct (outcome p) eqn:Hp; cbn; eauto.
Qed.

Lemma catch_keeps_time {A} (p : promise A) h :
  settled_at (catch_ p h) = settled_at p.
Proof. unfold catch_. destruct (outcome p); reflexivity. Qed.

Lemma first_rejection_none {A} (ps : list (promise A)) :
  Forall (fun p => exists a, outcome p = Normal a) ps ->
  first_rejection ps = None.
Proof.
  induction 1 as [|p ps [a Ha] _ IH]; cbn; [reflexivity|].
  now rewrite Ha, IH.
Qed.

(** A join of promises that all fulfil fulfils, when the last has. *)
Lemma all_fulfils {A} (ps : list (promise A)) :
  Forall (fun p => exists a, outcome p = Normal a) ps ->
  all ps = Settle (latest ps) (Normal (fulfilled ps)).
Proof. intros H. unfold all. now rewrite first_rejection_none. Qed.

Lemma latest_bound {A} (ps : list (promise A)) p :
  In p ps -> (settled_at p <= latest ps)%N.
Proof.
  unfold latest. induction ps as [|q ps IH]; cbn; [contradiction|].
  intros [-> | H]; [|specialize (IH H)]; lia.
Qed.

(** ** One run, statement by statement *)

Lemma fetchJson_run env url w :
  fetchJson env url w =
  (Normal (Settle (now w + latency (endpoint env url))
             (Normal (delivered (endpoint env url)))), w).
Proof.
  unfold fetchJson, fetch, delivered, mbind, M_bind, mret, M_ret,
    then_, catch_, json.
  cbn. destruct (result (endpoint env url)) as [|[|v]]; reflexivity.
Qed.

(** The join of the handler never rejects: both fetch promises were
    given a [catch], and the timer promise only ever resolves. *)
Lemma join_fulfils env w :
  let pp := Settle (now w + latency (endpoint env price_url))
              (Normal (delivered (endpoint env price_url))) in
  let rp := Settle (now w + latency (endpoint env report_url))
              (Normal (delivered (endpoint env report_url))) in
  let dp := Settle (now w + 3500 + timerLag env) (Normal VUndefined) in
  all [pp; rp; dp] =
  Settle (latest [pp; rp; dp])
    (Normal [delivered (endpoint env price_url);
             delivered (endpoint env report_url); VUndefined]).
Proof.
  intros pp rp dp. rewrite all_fulfils; [reflexivity|].
  repeat constructor; cbn; eauto.
Qed.

Lemma join_time env :
  N.max 0
    (N.max (0 + latency (endpoint env price_url))
       (N.max (0 + latency (endpoint env report_url))
          (N.max (0 + 3500 + timerLag env) 0))) = finish env.
Proof. unfold finish. lia. Qed.

Lemma finish_floor env : (3500 <= finish env)%N.
Proof. unfold finish. lia. Qed.

(** The outcome and the log of a run, by the place of the exception. *)
Lemma run_eq env st :
  run env st =
  (Normal tt,
   let T := finish env in
   let P := spec_price (delivered (endpoint env price_url)) in
   let R := spec_report (delivered (endpoint env report_url)) in
   let prologue :=
     [(0%N, mk Loading (btcPrice st) (report st));
      (0%N, mk Loading None (report st));
      (0%N, mk Loading None None)] in
   let recovery :=
     [(T, mk Loading (Some fallbackPrice) None);
      (T, mk Loading (Some fallbackPrice) (Some fallbackReport));
      (T, mk Report (Some fallbackPrice) (Some fallbackReport))] in
   match fault env with
   | None =>
       {| now := T; app := mk Report (Some P) (Some R);
          log := prologue ++
                 [(T, mk Loading (Some P) None);
                  (T, mk Loading (Some P) (Some R));
                  (T, mk Report (Some P) (Some R))] |}
   | Some ReportNormalization =>
       {| now := T;
          app := mk Report (Some fallbackPrice) (Some fallbackReport);
          log := prologue ++ [(T, mk Loading (Some P) None)] ++ recovery |}
   | Some _ =>
       {| now := T;
          app := mk Report (Some fallbackPrice) (Some fallbackReport);
          log := prologue ++ recovery |}
   end).
Proof.
  unfold run, startBraincast, mbind, M_bind.
  cbn -[fetchJson N.add N.max all processPrice processReport].
  rewrite !fetchJson_run.
  cbn -[fetchJson N.add N.max all processPrice processReport].
  unfold try_catch, mbind, M_bind, may_throw, lift.
  destruct (fault env) as [[]|];
    cbn -[N.add N.max processPrice processReport];
    rewrite ?processPrice_total, ?processReport_total;
    cbn -[N.add N.max]; rewrite join_time; reflexivity.
Qed.

Lemma run_price env st :
  fault env = None ->
  btcPrice (app (run env st).2)
  = Some (spec_price (delivered (endpoint env price_url))).
Proof. intros Hf. rewrite run_eq, Hf. reflexivity. Qed.

Lemma run_report env st :
  fault env = None ->
  report (app (run env st).2)
  = Some (spec_report (delivered (endpoint env report_url))).
Proof. intros Hf. rewrite run_eq, Hf. reflexivity. Qed.

Lemma complete_loading p r : complete (mk Loading p r).
Proof. intros H. discriminate H. Qed.

Lemma complete_report p r :
  populated_price p = true -> populated_report r = true ->
  complete (mk Report (Some p) (Some r)).
Proof. intros Hp Hr _. exists p, r. auto. Qed.

Create HintDb braincast.

#[local] Hint Resolve complete_loading complete_report
  spec_price_populated spec_report_populated : braincast.

Lemma run_final_complete env st : complete (app (run env st).2).
Proof.
  rewrite run_eq. destruct (fault env) as [[]|]; cbn;
    apply complete_report; auto with braincast.
Qed.

(** ** The invariant of the data model *)

(** C1. In every execution of [startBraincast], each state in which
    the screen is the report screen holds both a price snapshot and a
    trade report, and none of their fields is [undefined] or [null]:
    no state a setter produces shows a partial report. *)
Theorem report_state_complete env st t s :
  In (t, s) (log (run env st).2) -> complete s.
Proof.
  rewrite run_eq.
  destruct (fault env) as [[]|]; cbn; intros H;
    repeat (destruct H as [H|H]; [inversion H; subst; clear H|]);
    try contradiction; auto with braincast.
Qed.

Lemma report_state_complete_witness :
  In (3504%N, mk Report (Some (spec_price scenario1))
                (Some (spec_report scenario2)))
     (log (run (serving scenario1 scenario2 None) initial).2) /\
  complete (mk Report (Some (spec_price scenario1))
              (Some (spec_report scenario2))).
Proof.
  assert (H : In (3504%N, mk Report (Some (spec_price scenario1))
                            (Some (spec_report scenario2)))
                 (log (run (serving scenario1 scenario2 None) initial).2)).
  { vm_compute. do 5 right. left. reflexivity. }
  split; [exact H|].
  exact (report_state_complete _ _ _ _ H).
Defined.

(** Over the life of the component, runs and resets alternating from
    the initial state, the same holds of every state reached. *)
Lemma lifecycle_complete st : rtc lifecycle initial st -> complete st.
Proof.
  intros H. apply (rtc_ind_r (R:=lifecycle) complete initial); [| |exact H].
  - intros Hs. discriminate Hs.
  - intros y z _ Hstep _. destruct Hstep.
    + apply run_final_complete.
    + intros Hs. discriminate Hs.
Qed.

(** ** Reaching the report screen *)

(** C2. Every execution of [startBraincast] ends by setting the screen
    to the report screen: whatever the two fetches do (succeed, fail,
    deliver anything) and whether or not an exception is caught, the
    handler returns normally, the last state it produces is the final
    one, and that state has left the loading screen for the report
    screen. *)
Theorem run_reaches_report env st :
  exists w,
    run env st = (Normal tt, w) /\
    screen (app w) = Report /\
    last (log w) = Some (now w, app w) /\
    now w = finish env.
Proof.
  eexists. split; [apply run_eq|].
  destruct (fault env) as [[]|]; cbn; auto.
Qed.

(** C3. The report screen is never set before 3500 ms have elapsed
    since the invocation, however fast the fetches are: the handler
    resumes when the slowest of the two fetches and the timer has
    settled, and the timer settles no sooner than at 3500 ms. *)
Theorem report_not_before_floor env st :
  now (run env st).2
  = N.max (N.max (latency (endpoint env price_url))
                 (latency (endpoint env report_url)))
          (3500 + timerLag env) /\
  forall t s,
    In (t, s) (log (run env st).2) -> screen s = Report -> (3500 <= t)%N.
Proof.
  rewrite run_eq. pose proof (finish_floor env) as Hfloor. split.
  - destruct (fault env) as [[]|]; reflexivity.
  - intros t s.
    destruct (fault env) as [[]|]; cbn; intros H Hs;
      repeat (destruct H as [H|H]; [inversion H; subst; clear H|]);
      try contradiction; try discriminate Hs; exact Hfloor.
Qed.

Lemma report_not_before_floor_witness :
  In (3500%N, shown) (log (run offline initial).2) /\
  screen shown = Report /\ (3500 <= 3500)%N.
Proof.
  assert (H : In (3500%N, shown) (log (run offline initial).2)).
  { vm_compute. do 5 right. left. reflexivity. }
  split; [exact H|]. split; [reflexivity|].
  exact (proj2 (report_not_before_floor offline initial) _ _ H eq_refl).
Defined.

(** ** The exception handler *)

(** When a statement that follows the join throws (taking the joined
    results apart, or normalizing the price or the report), the
    exception is caught: the handler returns normally, the price
    snapshot and the trade report are set to their full fallback
    values, and the screen is then set to the report screen. *)
Lemma exception_gives_fallback env st s :
  fault env = Some s ->
  exists w older,
    run env st = (Normal tt, w) /\
    app w = mk Report (Some fallbackPrice) (Some fallbackReport) /\
    log w = older ++
      [(now w, mk Loading (Some fallbackPrice) None);
       (now w, mk Loading (Some fallbackPrice) (Some fallbackReport));
       (now w, mk Report (Some fallbackPrice) (Some fallbackReport))].
Proof.
  intros Hf. rewrite run_eq, Hf.
  destruct s; cbn.
  - eexists _, [_; _; _]. split; [reflexivity|]. split; reflexivity.
  - eexists _, [_; _; _]. split; [reflexivity|]. split; reflexivity.
  - eexists _, [_; _; _; _]. split; [reflexivity|]. split; reflexivity.
Qed.

Lemma exception_gives_fallback_witness :
  app (run (serving scenario1 scenario2 (Some ReportNormalization)) initial).2
  = mk Report (Some fallbackPrice) (Some fallbackReport).
Proof.
  destruct (exception_gives_fallback
              (serving scenario1 scenario2 (Some ReportNormalization))
              initial ReportNormalization eq_refl)
    as (w & older & Hrun & Happ & _).
  rewrite Hrun. exact Happ.
Defined.

(** With the site read off the environment, the handler with sites is
    the handler. *)
Lemma startBraincastAt_agrees env w :
  startBraincastAt (Guarded <$> fault env) env w = startBraincast env w.
Proof.
  unfold startBraincastAt, startBraincast, mbind, M_bind, try_catch,
    throw_at, may_throw.
  destruct (fault env) as [[]|]; reflexivity.
Qed.

(** A [fetch] that throws when called for the price: the exception
    leaves the handler, which has only switched to the loading screen
    and cleared the data; no fallback is stored and the report screen
    is not set. *)
Lemma uncaught_before_try :
  (startBraincastAt (Some FetchPrice) (serving scenario1 scenario2 None)
     (boot initial)).1 = Throw HostError /\
  app (startBraincastAt (Some FetchPrice) (serving scenario1 scenario2 None)
         (boot initial)).2 = mk Loading None None /\
  ~ (exists w,
       startBraincastAt (Some FetchPrice) (serving scenario1 scenario2 None)
         (boot initial) = (Normal tt, w) /\
       app w = mk Report (Some fallbackPrice) (Some fallbackReport)).
Proof.
  split; [reflexivity|]. split; [reflexivity|].
  intros (w & H & _). apply (f_equal fst) in H. discriminate H.
Qed.

(** C7, amended. When a statement inside the [try] block throws (the
    join of the three operations, taking its result apart, normalizing
    the price or normalizing the report), the exception is caught: the
    handler returns normally, the price snapshot and the trade report
    are set to their full fallback values, and the screen is then set
    to the report screen. *)
Theorem guarded_exception_gives_fallback site env st :
  in_try site = true ->
  exists w older,
    startBraincastAt (Some site) env (boot st) = (Normal tt, w) /\
    app w = mk Report (Some fallbackPrice) (Some fallbackReport) /\
    log w = older ++
      [(now w, mk Loading (Some fallbackPrice) None);
       (now w, mk Loading (Some fallbackPrice) (Some fallbackReport));
       (now w, mk Report (Some fallbackPrice) (Some fallbackReport))].
Proof.
  intros Hin.
  unfold startBraincastAt, mbind, M_bind, throw_at.
  destruct site as [| | | | | | | s |]; try discriminate Hin; clear Hin;
    cbn -[fetchJson N.add N.max all processPrice processReport];
    rewrite !fetchJson_run;
    cbn -[fetchJson N.add N.max all processPrice processReport];
    unfold try_catch, mbind, M_bind, lift.
  - cbn. eexists _, [_; _; _]. split; [reflexivity|]. split; reflexivity.
  - destruct s;
      cbn -[N.add N.max processPrice processReport];
      rewrite ?processPrice_total, ?processReport_total;
      cbn -[N.add N.max].
    + eexists _, [_; _; _]. split; [reflexivity|]. split; reflexivity.
    + eexists _, [_; _; _]. split; [reflexivity|]. split; reflexivity.
    + eexists _, [_; _; _; _]. split; [reflexivity|]. split; reflexivity.
Qed.

Lemma guarded_exception_gives_fallback_witness :
  app (startBraincastAt (Some (Guarded ReportNormalization))
         (serving scenario1 scenario2 None) (boot initial)).2
  = mk Report (Some fallbackPrice) (Some fallbackReport).
Proof.
  destruct (guarded_exception_gives_fallback (Guarded ReportNormalization)
              (serving scenario1 scenario2 None) initial eq_refl)
    as (w & older & Hrun & Happ & _).
  rewrite Hrun. exact Happ.
Defined.

(** ** Normalizing the price *)

Lemma Math_round_nearest q :
  exists z : Z,
    Math_round (Finite q) = Finite (inject_Z z) /\
    (Qabs (inject_Z z - q) <= 1 # 2)%Q.
Proof.
  exists (Qfloor (q + (1 # 2))). split; [reflexivity|].
  pose proof (Qfloor_le (q + (1 # 2))) as Hle.
  pose proof (Qlt_floor (q + (1 # 2))) as Hlt.
  rewrite inject_Z_plus in Hlt.
  change (inject_Z 1) with 1%Q in Hlt.
  apply Qabs_Qle_condition. split; lra.
Qed.

Lemma delivered_unavailable f :
  result f = NetworkError \/ result f = Response NotJson ->
  delivered f = VNull.
Proof. unfold delivered. intros [-> | ->]; reflexivity. Qed.

Lemma delivered_json f v : result f = Response (Json v) -> delivered f = v.
Proof. unfold delivered. intros ->. reflexivity. Qed.

Lemma spec_price_not_numeric pd :
  is_number (own pd "price") = false -> spec_price pd = fallbackPrice.
Proof.
  unfold spec_price. destruct (own pd "price"); try reflexivity.
  discriminate.
Qed.

(** C5. Whatever the price endpoint does: when the request or the
    parsing fails, or the body has no numeric [price], the snapshot
    stored is the fallback {113279, -2.76}; otherwise its [price] is the
    response price rounded to the nearest integer and its [change24h]
    is the response one if numeric, else 0.  In particular
    {price: 65000.7, change24h: 1.2} gives {65001, 1.2}. *)
Theorem price_normalized env st :
  fault env = None ->
  let f := endpoint env price_url in
  let produced := btcPrice (app (run env st).2) in
  (result f = NetworkError \/ result f = Response NotJson ->
   produced = Some fallbackPrice) /\
  (forall v, result f = Response (Json v) ->
     is_number (own v "price") = false -> produced = Some fallbackPrice) /\
  (forall v n, result f = Response (Json v) -> own v "price" = VNum n ->
     produced =
     Some {| price := VNum (Math_round n);
             change24h := if is_number (own v "change24h")
                          then own v "change24h" else num 0 |}) /\
  (forall q, exists z : Z,
     Math_round (Finite q) = Finite (inject_Z z) /\
     (Qabs (inject_Z z - q) <= 1 # 2)%Q) /\
  (result f = Response (Json scenario1) ->
   produced = Some {| price := num 65001; change24h := num 1.2 |}).
Proof.
  intros Hf f produced. subst produced. rewrite (run_price _ _ Hf).
  fold f. repeat split.
  - intros H. rewrite (delivered_unavailable _ H). reflexivity.
  - intros v Hv Hn. rewrite (delivered_json _ _ Hv).
    now rewrite spec_price_not_numeric.
  - intros v n Hv Hn. rewrite (delivered_json _ _ Hv).
    unfold spec_price. rewrite Hn. reflexivity.
  - apply Math_round_nearest.
  - intros Hv. rewrite (delivered_json _ _ Hv). reflexivity.
Qed.

Lemma price_normalized_witness :
  btcPrice (app (run (serving scenario1 scenario2 None) initial).2)
  = Some {| price := num 65001; change24h := num 1.2 |}.
Proof.
  apply (price_normalized (serving scenario1 scenario2 None) initial eq_refl).
  reflexivity.
Defined.

(** The price endpoint answering {price: "not-a-number"} (scenario 4),
    and both requests failing (scenario 3). *)
Example price_not_a_number :
  processPrice (obj [("price", VStr "not-a-number")]) = Normal fallbackPrice.
Proof. reflexivity. Qed.

Example offline_run :
  app (run offline initial).2
  = mk Report (Some fallbackPrice) (Some fallbackReport).
Proof. reflexivity. Qed.

(** ** Normalizing the report *)

Lemma spec_report_present rd :
  has_signal rd = true -> spec_report rd = resolved rd.
Proof. unfold spec_report. intros ->. reflexivity. Qed.

Lemma spec_report_absent rd :
  has_signal rd = false -> spec_report rd = fallbackReport.
Proof. unfold spec_report. intros ->. reflexivity. Qed.

(** A result carrying a [signal] field whose value is the empty string
    gets the full fallback report, not the per-field resolution: its
    [entryPrice] of 70000 is dropped. *)
Lemma carried_signal_not_resolved :
  carries empty_signal "signal" = true /\
  processReport empty_signal = Normal fallbackReport /\
  report (app (run (serving scenario1 empty_signal None) initial).2)
  = Some fallbackReport /\
  entryPrice (resolved empty_signal) = num 70000 /\
  processReport empty_signal <> Normal (resolved empty_signal).
Proof.
  split; [reflexivity|]. split; [reflexivity|]. split; [reflexivity|].
  split; [reflexivity|].
  intros H. vm_compute in H. discriminate H.
Qed.

(** C4, amended. A report result counts as present exactly when its
    [signal] or its [direction] field is truthy.  When it is present
    the report is the resolved one: direction is [signal] if truthy
    and [direction] otherwise, and every other field follows its
    fallback chain.  When it is not present, even if it carries a falsy
    [signal] or [direction], the report is the full fallback. *)
Theorem report_present_iff_truthy rd :
  (has_signal rd = true ->
   processReport rd = Normal (resolved rd) /\
   direction (resolved rd)
   = (if truthy (own rd "signal") then own rd "signal"
      else own rd "direction")) /\
  (has_signal rd = false -> processReport rd = Normal fallbackReport).
Proof.
  rewrite processReport_total. split; intros H.
  - rewrite (spec_report_present _ H). split; [reflexivity|].
    unfold has_signal in H. cbn.
    destruct (truthy (own rd "signal")); [reflexivity|].
    cbn in H. now rewrite H.
  - now rewrite (spec_report_absent _ H).
Qed.

Lemma report_present_iff_truthy_witness :
  processReport scenario2 = Normal (resolved scenario2) /\
  processReport empty_signal = Normal fallbackReport.
Proof.
  split.
  - apply (proj1 (report_present_iff_truthy scenario2)). reflexivity.
  - apply (proj2 (report_present_iff_truthy empty_signal)). reflexivity.
Defined.

(** C6. The report endpoint answering
    {signal: "SHORT", entryPrice: 70000, stopLoss: 71000} gives the
    report {SHORT, 70000, 121500, 71000, 30}. *)
Theorem scenario2_report env st :
  fault env = None ->
  result (endpoint env report_url) = Response (Json scenario2) ->
  report (app (run env st).2)
  = Some {| direction := VStr "SHORT";
            entryPrice := num 70000;
            targetPrice := num 121500;
            stopPrice := num 71000;
            leverage := num 30 |}.
Proof.
  intros Hf Hr. rewrite (run_report _ _ Hf), (delivered_json _ _ Hr).
  reflexivity.
Qed.

Lemma scenario2_report_witness :
  report (app (run (serving scenario1 scenario2 None) initial).2)
  = Some {| direction := VStr "SHORT";
            entryPrice := num 70000;
            targetPrice := num 121500;
            stopPrice := num 71000;
            leverage := num 30 |}.
Proof.
  apply (scenario2_report (serving scenario1 scenario2 None) initial);
    reflexivity.
Defined.

(** C10. The direction is not checked against LONG, SHORT and NONE:
    when [signal] is a non-empty string, or [signal] is falsy and
    [direction] is a non-empty string, the report's direction is that
    very string. *)
Theorem direction_verbatim rd s :
  s <> "" ->
  own rd "signal" = VStr s \/
  (truthy (own rd "signal") = false /\ own rd "direction" = VStr s) ->
  exists r, processReport rd = Normal r /\ direction r = VStr s.
Proof.
  intros Hs H. exists (spec_report rd). split; [apply processReport_total|].
  assert (Ht : truthy (VStr s) = true).
  { cbn. destruct (String.eqb_spec s ""); [contradiction|reflexivity]. }
  unfold spec_report, has_signal.
  destruct H as [H | [Hf H]].
  - rewrite H, Ht. cbn. rewrite H, Ht. reflexivity.
  - rewrite Hf, H, Ht. cbn. rewrite Hf, H, Ht. reflexivity.
Qed.

Lemma direction_verbatim_witness :
  exists r,
    processReport (obj [("signal", VStr "HOLD")]) = Normal r /\
    direction r = VStr "HOLD".
Proof.
  apply (direction_verbatim (obj [("signal", VStr "HOLD")]) "HOLD").
  - discriminate.
  - left. reflexivity.
Defined.

(** ** Resetting *)

(** Resetting from a report screen that shows the fallback data lands
    on the landing screen with both pieces of data still held. *)
Lemma reset_keeps_data :
  screen (app (newReport (boot shown)).2) = Landing /\
  btcPrice (app (newReport (boot shown)).2) = Some fallbackPrice /\
  report (app (newReport (boot shown)).2) = Some fallbackReport /\
  ~ (btcPrice (app (newReport (boot shown)).2) = None /\
     report (app (newReport (boot shown)).2) = None).
Proof.
  cbn. repeat split. intros [H _]. discriminate H.
Qed.

(** C8, amended. From any state, [newReport] yields the landing screen
    and keeps the price snapshot and the trade report it found; they
    are emptied by the next run, which clears both right after
    switching to the loading screen. *)
Theorem reset_lands_and_retains st :
  let st' := app (newReport (boot st)).2 in
  screen st' = Landing /\
  btcPrice st' = btcPrice st /\
  report st' = report st /\
  forall env, In (0%N, mk Loading None None) (log (run env st').2).
Proof.
  cbn. repeat split. intros env. rewrite run_eq.
  destruct (fault env) as [[]|]; cbn; auto.
Qed.

(** C9. [newReport] sets the screen to the landing screen and does
    nothing else: it returns normally, the clock does not move, the
    price snapshot and the trade report are unchanged, the one state it
    produces is the new one; and a second call in a row leaves the
    state of the first. *)
Theorem reset_only_sets_screen w :
  let w1 := (newReport w).2 in
  let w2 := (newReport w1).2 in
  (newReport w).1 = Normal tt /\
  app w1 = mk Landing (btcPrice (app w)) (report (app w)) /\
  now w1 = now w /\
  log w1 = log w ++ [(now w, app w1)] /\
  app w2 = app w1.
Proof. cbn. repeat split. Qed.

(** ** The states of a run *)

Lemma run_final env st :
  exists p r,
    app (run env st).2 = mk Report (Some p) (Some r) /\
    is_number (price p) = true /\ is_number (change24h p) = true /\
    populated_price p = true /\ populated_report r = true.
Proof.
  rewrite run_eq.
  destruct (spec_price_numbers (delivered (endpoint env price_url)))
    as [Hp Hc].
  destruct (fault env) as [[]|]; cbn.
  1-3: exists fallbackPrice, fallbackReport; repeat split.
  eexists _, _. split; [reflexivity|].
  auto using spec_price_populated, spec_report_populated.
Qed.

(** X2. While [startBraincast] runs, every state it produces but the
    last has the loading screen set and the last has the report screen
    set: the screen never goes back to the landing screen and switches
    to the report screen once, at the end, also when an exception is
    caught. *)
Theorem run_screens env st :
  exists w older,
    run env st = (Normal tt, w) /\
    log w = older ++ [(now w, app w)] /\
    Forall (fun e => screen e.2 = Loading) older /\
    screen (app w) = Report.
Proof.
  rewrite run_eq.
  destruct (fault env) as [[]|]; cbn;
    match goal with
    | |- context [Build_World _ _ ?l] =>
        eexists; exists (removelast l)
    end;
    (split; [reflexivity|]); cbn;
    (split; [reflexivity|]);
    (split; [repeat constructor|reflexivity]).
Qed.

(** X3. A run carries nothing over from the state it starts in: two
    runs in the same environment end in the same state at the same
    time, and differ at most in the two states that precede the
    clearing of the old report. *)
Theorem run_forgets_start env st1 st2 :
  app (run env st1).2 = app (run env st2).2 /\
  now (run env st1).2 = now (run env st2).2 /\
  drop 2 (log (run env st1).2) = drop 2 (log (run env st2).2).
Proof.
  rewrite !run_eq. destruct (fault env) as [[]|]; cbn; auto.
Qed.

(** X4. Without an exception each piece of data depends on its own
    endpoint only: runs whose price endpoints answer alike store the
    same snapshot whatever the report endpoint does and however long
    either takes, and likewise for the report. *)
Theorem endpoints_independent env1 env2 st1 st2 :
  fault env1 = None -> fault env2 = None ->
  (result (endpoint env1 price_url) = result (endpoint env2 price_url) ->
   btcPrice (app (run env1 st1).2) = btcPrice (app (run env2 st2).2)) /\
  (result (endpoint env1 report_url) = result (endpoint env2 report_url) ->
   report (app (run env1 st1).2) = report (app (run env2 st2).2)).
Proof.
  intros H1 H2. rewrite !run_price, !run_report by assumption.
  unfold delivered. split; intros ->; reflexivity.
Qed.

Lemma endpoints_independent_witness :
  btcPrice (app (run (serving scenario1 scenario2 None) initial).2)
  = btcPrice (app (run (price_only scenario1) shown).2).
Proof.
  apply (endpoints_independent (serving scenario1 scenario2 None)
           (price_only scenario1) initial shown eq_refl eq_refl).
  reflexivity.
Defined.

(** ** What normalization does with unexpected answers *)

(** X5. Whatever value an endpoint delivers ([null], a primitive, an
    array, an object with fields of any type), neither normalization
    expression throws; the snapshot's [price] and [change24h] are
    numbers, and every field of the report is set. *)
Theorem normalization_never_throws v :
  (exists p, processPrice v = Normal p /\
     is_number (price p) = true /\ is_number (change24h p) = true) /\
  (exists r, processReport v = Normal r /\ populated_report r = true).
Proof.
  split.
  - exists (spec_price v). split; [apply processPrice_total|].
    apply spec_price_numbers.
  - exists (spec_report v). split; [apply processReport_total|].
    apply spec_report_populated.
Qed.

(** X6. The fields of a present report are not validated: a primary
    field that is neither [undefined] nor [null] is stored as it is
    (a zero, an empty string, [false] or an object included), whatever
    its alternate field holds. *)
Theorem primary_field_verbatim rd r :
  has_signal rd = true -> processReport rd = Normal r ->
  (nullish (own rd "entryPrice") = false ->
   entryPrice r = own rd "entryPrice") /\
  (nullish (own rd "targetPrice") = false ->
   targetPrice r = own rd "targetPrice") /\
  (nullish (own rd "stopPrice") = false ->
   stopPrice r = own rd "stopPrice") /\
  (nullish (own rd "leverage") = false ->
   leverage r = own rd "leverage").
Proof.
  intros Hs H. rewrite processReport_total, (spec_report_present _ Hs) in H.
  injection H as <-. cbn.
  repeat split; intros ->; reflexivity.
Qed.

Lemma primary_field_verbatim_witness :
  entryPrice (resolved (obj [("signal", VStr "LONG"); ("entryPrice", num 0)]))
  = num 0.
Proof.
  apply (primary_field_verbatim
           (obj [("signal", VStr "LONG"); ("entryPrice", num 0)])
           _ eq_refl eq_refl).
  reflexivity.
Defined.

(** X7. The constants of the per-field chains are those of the full
    fallback report: a present result that gives none of the optional
    fields yields the fallback report with only the direction
    replaced. *)
Theorem defaults_agree rd :
  has_signal rd = true ->
  nullish (own rd "entryPrice") = true ->
  nullish (own (own rd "technicalData") "entryPrice") = true ->
  nullish (own rd "targetPrice") = true ->
  nullish (own rd "exitPrice") = true ->
  nullish (own rd "stopPrice") = true ->
  nullish (own rd "stopLoss") = true ->
  nullish (own rd "leverage") = true ->
  processReport rd
  = Normal {| direction := if truthy (own rd "signal")
                           then own rd "signal" else own rd "direction";
              entryPrice := entryPrice fallbackReport;
              targetPrice := targetPrice fallbackReport;
              stopPrice := stopPrice fallbackReport;
              leverage := leverage fallbackReport |}.
Proof.
  intros Hs He Ht Hg Hx Hp Hl Hv.
  rewrite processReport_total, (spec_report_present _ Hs).
  unfold resolved, has_signal in *. cbn.
  rewrite He, Ht, Hg, Hx, Hp, Hl, Hv.
  destruct (truthy (own rd "signal")); [reflexivity|].
  cbn in Hs. rewrite Hs. reflexivity.
Qed.

Lemma defaults_agree_witness :
  processReport (obj [("direction", VStr "NONE")])
  = Normal {| direction := VStr "NONE";
              entryPrice := num 119500;
              targetPrice := num 121500;
              stopPrice := num 119200;
              leverage := num 30 |}.
Proof.
  apply (defaults_agree (obj [("direction", VStr "NONE")]));
    reflexivity.
Defined.

(** X8. Each request is turned into a promise that never rejects and
    settles when the request does; it resolves with [null] exactly when
    the request failed, the body did not parse, or the body was the
    JSON value [null], so these three cases cannot be told apart
    afterwards. *)
Theorem fetchJson_never_rejects env url w :
  exists v,
    fetchJson env url w
    = (Normal (Settle (now w + latency (endpoint env url)) (Normal v)), w) /\
    (v = VNull <->
     result (endpoint env url) = NetworkError \/
     result (endpoint env url) = Response NotJson \/
     result (endpoint env url) = Response (Json VNull)).
Proof.
  exists (delivered (endpoint env url)). split; [apply fetchJson_run|].
  unfold delivered.
  destruct (result (endpoint env url)) as [|[|v]]; split; auto.
  - intros ->. auto.
  - intros [H | [H | H]]; congruence.
Qed.

(** X9. A caught exception leaves nothing that tells it from missing
    data: the final state of a run with an exception is the final state
    of any run without one whose price result has no numeric [price]
    and whose report result has no truthy [signal] or [direction]. *)
Theorem failure_indistinguishable env1 env2 st1 st2 s :
  fault env1 = Some s -> fault env2 = None ->
  is_number (own (delivered (endpoint env2 price_url)) "price") = false ->
  has_signal (delivered (endpoint env2 report_url)) = false ->
  app (run env1 st1).2 = app (run env2 st2).2.
Proof.
  intros H1 H2 Hp Hr. rewrite !run_eq, H1, H2. cbn.
  rewrite (spec_price_not_numeric _ Hp), (spec_report_absent _ Hr).
  destruct s; reflexivity.
Qed.

Lemma failure_indistinguishable_witness :
  app (run (serving scenario1 scenario2 (Some PriceNormalization)) initial).2
  = app (run offline shown).2.
Proof.
  apply (failure_indistinguishable
           (serving scenario1 scenario2 (Some PriceNormalization)) offline
           initial shown PriceNormalization); reflexivity.
Defined.

(** ** Colours of the report screen *)

(** X10. The snapshot a run stores always has a number as its 24h
    change, so the comparison of lines 152 and 154 is made on a number
    and its two uses agree: green with a plus sign, or red with no
    prefix. *)
Theorem change_style_defined env st :
  exists p,
    btcPrice (app (run env st).2) = Some p /\
    ((changeColor (change24h p) = Some green /\
      changePrefix (change24h p) = Some "+") \/
     (changeColor (change24h p) = Some red /\
      changePrefix (change24h p) = Some "")).
Proof.
  destruct (run_final env st) as (p & r & -> & _ & Hc & _).
  exists p. split; [reflexivity|].
  destruct (change24h p) as [| | |n| | |]; try discriminate Hc.
  cbn. destruct (ge_zero n); auto.
Qed.

(** X11. From a price answer with a numeric [price] but no numeric
    [change24h] the run stores a change of 0, for which lines 152 and
    154 choose green and a plus sign. *)
Theorem missing_change_shown_positive env st v n :
  fault env = None ->
  result (endpoint env price_url) = Response (Json v) ->
  own v "price" = VNum n ->
  is_number (own v "change24h") = false ->
  exists p,
    btcPrice (app (run env st).2) = Some p /\
    change24h p = num 0 /\
    changeColor (change24h p) = Some green /\
    changePrefix (change24h p) = Some "+".
Proof.
  intros Hf Hv Hn Hc. rewrite run_eq, Hf. cbn.
  eexists. split; [reflexivity|].
  rewrite (delivered_json _ _ Hv). unfold spec_price. rewrite Hn, Hc.
  repeat split.
Qed.

Lemma missing_change_shown_positive_witness :
  exists p,
    btcPrice (app (run (price_only (obj [("price", num 65000.7)])) initial).2)
    = Some p /\
    change24h p = num 0 /\
    changeColor (change24h p) = Some green /\
    changePrefix (change24h p) = Some "+".
Proof.
  apply (missing_change_shown_positive
           (price_only (obj [("price", num 65000.7)])) initial
           (obj [("price", num 65000.7)]) (Finite 65000.7));
    reflexivity.
Defined.

(** X12. The signal colour compares the unvalidated direction with
    ['LONG'] and ['SHORT'] exactly: a [signal] string gives green for
    LONG, red for SHORT, and grey for anything else, NONE and other
    spellings such as lower case included. *)
Theorem signal_colour rd s r :
  s <> "" -> own rd "signal" = VStr s -> processReport rd = Normal r ->
  (s = "LONG" -> signalColor (direction r) = green) /\
  (s = "SHORT" -> signalColor (direction r) = red) /\
  (s <> "LONG" -> s <> "SHORT" -> signalColor (direction r) = grey).
Proof.
  intros Hs Hsig H.
  assert (Ht : truthy (VStr s) = true).
  { cbn. destruct (String.eqb_spec s ""); [contradiction|reflexivity]. }
  rewrite processReport_total in H. injection H as <-.
  unfold spec_report, has_signal. rewrite Hsig, Ht. cbn.
  rewrite Hsig, Ht. cbn.
  repeat split.
  - intros ->. reflexivity.
  - intros ->. reflexivity.
  - intros Hl Hh.
    destruct (String.eqb_spec s "LONG"); [contradiction|].
    destruct (String.eqb_spec s "SHORT"); [contradiction|reflexivity].
Qed.

Lemma signal_colour_witness :
  signalColor (direction (spec_report (obj [("signal", VStr "long")])))
  = grey.
Proof.
  apply (signal_colour (obj [("signal", VStr "long")]) "long"
           (spec_report (obj [("signal", VStr "long")])));
    try reflexivity; discriminate.
Defined.
